(** * Option mapping and choice filtering of create-supertokens-app

    A shallow embedding of [mapOptionsToChoices] and the run-script functions
    (lib/ts utilities) and of [lib/ts/filterChoicesUtils.ts]: the two filter
    strategies, the strategy registry [STRATEGIES] and the composition
    function [filterChoices].

    Conventions of the embedding:
    - a JavaScript array is a [list]; [Array.prototype.filter] and
      [Array.prototype.map] are [List.filter] and [List.map];
    - an optional object field is an [option] ([None] is [undefined]);
    - a settled [Promise<T>] is a value of [Promise T], either fulfilled with a
      result or rejected with the thrown value; the body of an [async]
      function is written in the corresponding monad, [await] being its bind;
    - the object literal [STRATEGIES] is a finite map from property keys for
      its own properties, with [Object.prototype] behind it: the lookup
      [STRATEGIES[filter]] finds an own property first, then an inherited
      one;
    - inside [filterChoices] the variable [choices] is a [JsValue]: an array
      of choices or, once an inherited property has been called, some other
      value. *)

From stdpp Require Import base strings list gmap pretty.

Local Open Scope string_scope.
Local Open Scope list_scope.

(** ** Data model (types.js) *)

(** [{ name, value }]: the shape handed to the prompt. *)
Record PromptListChoice := mkChoice {
  name : string;
  value : string;
}.

(** A question option; [shouldDisplay] is an optional boolean field, and
    [optionValue] is the field [value] (renamed: [value] is the projection of
    [PromptListChoice]). *)
Record QuestionOption := mkOption {
  displayName : string;
  optionValue : string;
  shouldDisplay : option bool;
}.

(** The two flags read by the filter strategies; both are optional. *)
Record UserFlags := mkFlags {
  uibuild : option string;
  frontend : option string;
}.

#[global] Instance PromptListChoice_eq_dec : EqDecision PromptListChoice.
Proof. solve_decision. Defined.

(** Modelled from the spec: the enum [UIBuildType] is declared in types.js;
    its member [PRE_BUILT] has the runtime value ["pre-built"]. *)
Module UIBuildType.
Definition PRE_BUILT : string := "pre-built".
End UIBuildType.

(** ** Promises and thrown values *)

(** What a [throw] carries: an [Error] object with its message, any other
    value a caller-supplied function may throw, or the [TypeError] the
    runtime raises when a value that is not a function is called or a
    property of [undefined] is read. *)
Inductive Thrown :=
  | JsError (message : string)
  | JsOther (repr : string)
  | JsTypeError.

Inductive Promise (A : Type) :=
  | Fulfilled (result : A)
  | Rejected (reason : Thrown).

Arguments Fulfilled {A} result.
Arguments Rejected {A} reason.

(** [await p] followed by the rest of an async body. *)
Definition await {A B : Type} (p : Promise A) (k : A -> Promise B) : Promise B :=
  match p with
  | Fulfilled a => k a
  | Rejected e => Rejected e
  end.

Notation "x <- 'await!' p ; k" := (await p (fun x => k))
  (at level 100, p at next level, right associativity, only parsing).

(** The same promise, its result seen through [g]. *)
Definition Promise_map {A B : Type} (g : A -> B) (p : Promise A) : Promise B :=
  match p with
  | Fulfilled a => Fulfilled (g a)
  | Rejected e => Rejected e
  end.

(** ** JavaScript primitives used by the code *)

(** [a === b] where [a] is an optional string field and [b] a string. *)
Definition strict_eq (a : option string) (b : string) : bool :=
  match a with
  | Some s => String.eqb s b
  | None => false
  end.

(** [arr.includes(x)] on an array of strings. *)
Fixpoint includes (arr : list string) (x : string) : bool :=
  match arr with
  | [] => false
  | y :: rest => String.eqb y x || includes rest x
  end.

(** ** mapOptionsToChoices *)

Definition mapOptionsToChoices (options : list QuestionOption) : list PromptListChoice :=
  List.map
    (fun option => {| name := displayName option; value := optionValue option |})
    (List.filter
       (fun i => match shouldDisplay i with Some false => false | _ => true end)
       options).

(** ** The filter strategies *)

Abbreviation Strategy :=
  (list PromptListChoice -> UserFlags -> Promise (list PromptListChoice)).

Definition SUPPORTED_FRONTENDS_CUSTOM_UI : list string := ["react"].

Definition SUPPORTED_RECIPES_CUSTOM_UI : list string :=
  ["emailpassword"; "thirdpartyemailpassword"].

Definition NO_RECIPES_MESSAGE : string :=
  "No Recipes Available for the selected UI Build Type and Frontend".

(** [STRATEGIES[FILTER_CHOICES_STRATEGY.UI_BUILD_FRONTEND]] *)
Definition uiBuildFrontend : Strategy := fun choices flags =>
  if strict_eq (uibuild flags) UIBuildType.PRE_BUILT then Fulfilled choices
  else
    Fulfilled
      (List.filter
         (fun choice => includes SUPPORTED_FRONTENDS_CUSTOM_UI (value choice))
         choices).

(** [STRATEGIES[FILTER_CHOICES_STRATEGY.UI_BUILD_RECIPE]] *)
Definition uiBuildRecipe : Strategy := fun choices flags =>
  if strict_eq (uibuild flags) UIBuildType.PRE_BUILT then Fulfilled choices
  else if negb (strict_eq (frontend flags) "react") then
    Rejected (JsError NO_RECIPES_MESSAGE)
  else
    Fulfilled
      (List.filter
         (fun choice => includes SUPPORTED_RECIPES_CUSTOM_UI (value choice))
         choices).

(** ** The strategies at run time *)

(** What the variable [choices] of [filterChoices] can hold at run time: an
    array of choices, or a value that is not an array (a boolean, a string,
    [undefined], a function or a plain object), which only the call of a
    property inherited from [Object.prototype] produces. *)
Inductive JsValue :=
  | VChoices (choices : list PromptListChoice)
  | VOther.

(** [choices.filter(callback)]: the method of arrays; a value that is not an
    array has no such method, and the call raises a [TypeError]. *)
Definition array_filter (choices : JsValue) (callback : PromptListChoice -> bool)
    : Promise JsValue :=
  match choices with
  | VChoices l => Fulfilled (VChoices (List.filter callback l))
  | VOther => Rejected JsTypeError
  end.

Abbreviation JsStrategy := (JsValue -> UserFlags -> Promise JsValue).

(** The body of [STRATEGIES[FILTER_CHOICES_STRATEGY.UI_BUILD_FRONTEND]] on
    whatever [choices] holds. *)
Definition runUiBuildFrontend : JsStrategy := fun choices flags =>
  if strict_eq (uibuild flags) UIBuildType.PRE_BUILT then Fulfilled choices
  else
    array_filter choices
      (fun choice => includes SUPPORTED_FRONTENDS_CUSTOM_UI (value choice)).

(** The body of [STRATEGIES[FILTER_CHOICES_STRATEGY.UI_BUILD_RECIPE]] on
    whatever [choices] holds. *)
Definition runUiBuildRecipe : JsStrategy := fun choices flags =>
  if strict_eq (uibuild flags) UIBuildType.PRE_BUILT then Fulfilled choices
  else if negb (strict_eq (frontend flags) "react") then
    Rejected (JsError NO_RECIPES_MESSAGE)
  else
    array_filter choices
      (fun choice => includes SUPPORTED_RECIPES_CUSTOM_UI (value choice)).

(** ** Strategy identifiers and the registry *)

(** The runtime value of a member of a TypeScript enum: a number or a string.
    Numbers are taken to be integers in the range where JavaScript prints them
    in plain decimal notation. *)
Inductive EnumValue :=
  | ENum (n : Z)
  | EStr (s : string).

(** Truthiness of such a value: [0] and the empty string are falsy. *)
Definition truthy (v : EnumValue) : bool :=
  match v with
  | ENum n => negb (Z.eqb n 0)
  | EStr s => negb (String.eqb s "")
  end.

(** The property key a value denotes in [obj[v]]: numbers are converted to
    their decimal string. *)
Definition property_key (v : EnumValue) : string :=
  match v with
  | ENum n => pretty n
  | EStr s => s
  end.

(** ** The properties an object literal inherits *)

(** What [STRATEGIES[name](choices, flags)] does when [name] is a property of
    [Object.prototype]:
    - [Object(choices)] returns its argument when that is an object, and an
      object that is not an array otherwise;
    - [__proto__] holds [Object.prototype], which is truthy and not a
      function, and [__defineGetter__]/[__defineSetter__] refuse the second
      argument [flags], which is not callable: a [TypeError];
    - the other functions return a boolean, a string, [undefined], a function
      or the registry itself: never an array.
    What these functions return beyond that (which boolean, which string) is
    not tracked: [VOther] stands for all of them.  An enum member that is
    itself named [toString], [valueOf], [then] or [filter] would be consulted
    by them, by [await] or by a strategy on such a value; no array results in
    that case either. *)
Inductive Inherited :=
  | ReturnsArgument
  | ThrowsTypeError
  | ReturnsOther.

Definition OBJECT_PROTOTYPE : gmap string Inherited :=
  list_to_map
    [ ("constructor", ReturnsArgument);
      ("__proto__", ThrowsTypeError);
      ("__defineGetter__", ThrowsTypeError);
      ("__defineSetter__", ThrowsTypeError);
      ("__lookupGetter__", ReturnsOther);
      ("__lookupSetter__", ReturnsOther);
      ("hasOwnProperty", ReturnsOther);
      ("isPrototypeOf", ReturnsOther);
      ("propertyIsEnumerable", ReturnsOther);
      ("toLocaleString", ReturnsOther);
      ("toString", ReturnsOther);
      ("valueOf", ReturnsOther) ].

Definition call_inherited (m : Inherited) (choices : JsValue) : Promise JsValue :=
  match m with
  | ReturnsArgument => Fulfilled choices
  | ThrowsTypeError => Rejected JsTypeError
  | ReturnsOther => Fulfilled VOther
  end.

(** What the lookup [STRATEGIES[filter]] yields. *)
Inductive Property :=
  | Own (f : JsStrategy)
  | FromPrototype (m : Inherited)
  | Undefined.

(** ** The arguments of [filterChoices] *)

(** The third argument of the function returned by [filterChoices]. *)
Inductive StrategyArg :=
  | Omitted
  | Single (s : EnumValue)
  | Sequence (l : list EnumValue)
  | Custom (f : JsValue -> Promise JsValue).

(** Its second argument: an array, or a promise (of an array, by its type). *)
Inductive ChoicesArg :=
  | Plain (choices : list PromptListChoice)
  | Pending (p : Promise JsValue).

(** [!strategy] *)
Definition not_ (strategy : StrategyArg) : bool :=
  match strategy with
  | Omitted => true
  | Single s => negb (truthy s)
  | Sequence _ => false
  | Custom _ => false
  end.

(** [Array.isArray(strategy) && strategy.length === 0] *)
Definition is_empty_array (strategy : StrategyArg) : bool :=
  match strategy with
  | Sequence l => Nat.eqb (List.length l) 0
  | _ => false
  end.

(** [if (choices instanceof Promise) { choices = await choices; }] *)
Definition resolve (choices : ChoicesArg) : Promise JsValue :=
  match choices with
  | Plain l => Fulfilled (VChoices l)
  | Pending p => p
  end.

Section Engine.

(** The enum [FILTER_CHOICES_STRATEGY] is declared in types.js; the runtime
    values of its two members used as registry keys are parameters. *)
Variables UI_BUILD_FRONTEND UI_BUILD_RECIPE : EnumValue.

(** The own properties of the object literal [STRATEGIES]; a later property
    overrides an earlier one with the same key. *)
Definition STRATEGIES : gmap string JsStrategy :=
  <[property_key UI_BUILD_RECIPE := runUiBuildRecipe]>
    (<[property_key UI_BUILD_FRONTEND := runUiBuildFrontend]> ∅).

(** [STRATEGIES[filter]]: an own property, else a property of
    [Object.prototype], else [undefined]. *)
Definition STRATEGIES_get (filter : EnumValue) : Property :=
  match STRATEGIES !! property_key filter with
  | Some f => Own f
  | None =>
      match OBJECT_PROTOTYPE !! property_key filter with
      | Some m => FromPrototype m
      | None => Undefined
      end
  end.

(** The [for (const filter of strategy)] loop.  Of the three outcomes of the
    lookup only [undefined] is falsy. *)
Fixpoint apply_filters (flags : UserFlags) (strategy : list EnumValue)
    (choices : JsValue) : Promise JsValue :=
  match strategy with
  | [] => Fulfilled choices
  | filter :: rest =>
      match STRATEGIES_get filter with
      | Undefined => apply_filters flags rest choices
      | Own f =>
          choices' <- await! f choices flags;
          apply_filters flags rest choices'
      | FromPrototype m =>
          choices' <- await! call_inherited m choices;
          apply_filters flags rest choices'
      end
  end.

Definition filterChoices (flags : UserFlags) (choices : ChoicesArg)
    (strategy : StrategyArg) : Promise JsValue :=
  choices <- await! resolve choices;
  if not_ strategy || is_empty_array strategy then Fulfilled choices
  else
    match strategy with
    | Custom f => f choices
    | Single s => apply_filters flags [s] choices
    | Sequence l => apply_filters flags l choices
    | Omitted => Fulfilled choices
    end.

End Engine.

Arguments STRATEGIES : simpl never.
Arguments OBJECT_PROTOTYPE : simpl never.

(** ** Run scripts *)

(** [getPythonRunScripts]; the result of [os.platform()] is the argument. *)
Definition getPythonRunScripts (platform : string) : list string :=
  if String.eqb platform "win32" then
    [ "pip install virtualenv";
      "python -m virtualenv venv";
      ".\\venv\\Scripts\\activate.bat";
      "pip install -r requirements.txt";
      "python app.py" ]
  else
    [ "pip install virtualenv";
      "virtualenv venv";
      "chmod +x venv/bin/activate";
      ". venv/bin/activate";
      "pip install -r requirements.txt";
      "python app.py" ].

(** [getDjangoPythonRunScripts], likewise. *)
Definition getDjangoPythonRunScripts (platform : string) : list string :=
  if String.eqb platform "win32" then
    [ "pip install virtualenv";
      "python -m virtualenv venv";
      ".\\venv\\Scripts\\activate.bat";
      "pip install -r requirements.txt";
      "python manage.py runserver" ]
  else
    [ "pip install virtualenv";
      "virtualenv venv";
      "chmod +x venv/bin/activate";
      ". venv/bin/activate";
      "pip install -r requirements.txt";
      "python manage.py runserver" ].

(** ** Specification-side notions *)

(** [Displayed options choices]: [choices] lists, in order, one
    [{ name, value }] entry for each option of [options] whose
    [shouldDisplay] is not [false], and nothing else. *)
Inductive Displayed : list QuestionOption -> list PromptListChoice -> Prop :=
  | Displayed_nil : Displayed [] []
  | Displayed_skip o options choices :
      shouldDisplay o = Some false ->
      Displayed options choices ->
      Displayed (o :: options) choices
  | Displayed_keep o options choices :
      shouldDisplay o <> Some false ->
      Displayed options choices ->
      Displayed (o :: options)
        ({| name := displayName o; value := optionValue o |} :: choices).

(** An identifier is registered when its property key is one of the keys of
    the registry. *)
Definition registered (UI_BUILD_FRONTEND UI_BUILD_RECIPE s : EnumValue) : Prop :=
  property_key s ∈ [property_key UI_BUILD_FRONTEND; property_key UI_BUILD_RECIPE].

#[global] Instance registered_dec uf ur s : Decision (registered uf ur s).
Proof. unfold registered. apply _. Defined.

(** The key of an identifier names a property of [Object.prototype]. *)
Definition names_inherited (s : EnumValue) : Prop :=
  is_Some (OBJECT_PROTOTYPE !! property_key s).

#[global] Instance names_inherited_dec s : Decision (names_inherited s).
Proof. unfold names_inherited. apply _. Defined.

(** The lookup of the identifier ends in the registry itself: it finds an
    own property, or nothing at all. *)
Definition own_or_absent (UI_BUILD_FRONTEND UI_BUILD_RECIPE s : EnumValue) : Prop :=
  registered UI_BUILD_FRONTEND UI_BUILD_RECIPE s \/ ~ names_inherited s.

#[global] Instance own_or_absent_dec uf ur s : Decision (own_or_absent uf ur s).
Proof. unfold own_or_absent. apply _. Defined.

(** A strategy narrows when every list it returns is a subsequence of the
    list it was given. *)
Definition narrows (f : Strategy) : Prop :=
  forall choices flags out,
    f choices flags = Fulfilled out -> out `sublist_of` choices.

(** The unsatisfiable-configuration error. *)
Definition unsatisfiable : Thrown := JsError NO_RECIPES_MESSAGE.

(** Unfolding steps shared by the proofs about the registry. *)
Ltac unfold_registry := unfold STRATEGIES.
Ltac unfold_get := unfold STRATEGIES_get.
Ltac unfold_registered := unfold registered in *.
Ltac unfold_own_or_absent := unfold own_or_absent in *.
Ltac unfold_engine := unfold filterChoices.
Ltac step_loop := cbn [apply_filters].

(** ** A closed form of the loop (used in proofs) *)

Inductive StrategyName := Frontend | Recipe.

Definition allow_list (n : StrategyName) : list string :=
  match n with
  | Frontend => SUPPORTED_FRONTENDS_CUSTOM_UI
  | Recipe => SUPPORTED_RECIPES_CUSTOM_UI
  end.

Section ClosedForm.

Variables UI_BUILD_FRONTEND UI_BUILD_RECIPE : EnumValue.

(** Which strategy the registry holds under the key of [s], if any. *)
Definition strategy_name (s : EnumValue) : option StrategyName :=
  if decide (property_key UI_BUILD_RECIPE = property_key s) then Some Recipe
  else if decide (property_key UI_BUILD_FRONTEND = property_key s) then Some Frontend
  else None.

(** The choice passes the allow-list of every registered identifier of [l]. *)
Definition admits (l : list EnumValue) (choice : PromptListChoice) : bool :=
  forallb
    (fun s =>
       match strategy_name s with
       | Some n => includes (allow_list n) (value choice)
       | None => true
       end)
    l.

(** Some identifier of [l] has the key of the recipe strategy. *)
Definition names_recipe (l : list EnumValue) : bool :=
  existsb
    (fun s => match strategy_name s with Some Recipe => true | _ => false end)
    l.

End ClosedForm.

Ltac unfold_strategy_name := unfold strategy_name.
Ltac unfold_admits := unfold names_recipe, admits.
Ltac unfold_names_recipe := unfold names_recipe.

(** ** Sample data *)

Module Sample.
(** A string enum whose members' values are their names. *)
Definition UI_BUILD_FRONTEND : EnumValue := EStr "UI_BUILD_FRONTEND".
Definition UI_BUILD_RECIPE : EnumValue := EStr "UI_BUILD_RECIPE".

Definition custom_react : UserFlags :=
  {| uibuild := Some "custom"; frontend := Some "react" |}.
Definition custom_vue : UserFlags :=
  {| uibuild := Some "custom"; frontend := Some "vue" |}.

Definition React : PromptListChoice := {| name := "React"; value := "react" |}.
Definition Vue : PromptListChoice := {| name := "Vue"; value := "vue" |}.
Definition frontends : list PromptListChoice := [React; Vue].

Definition filterChoices := filterChoices UI_BUILD_FRONTEND UI_BUILD_RECIPE.
End Sample.

(** ** Basic facts about the primitives *)

Lemma strict_eq_true a b : strict_eq a b = true <-> a = Some b.
Proof.
  destruct a as [s|]; simpl.
  - rewrite String.eqb_eq. split; [intros ->; reflexivity | intros [= ->]; reflexivity].
  - split; discriminate.
Qed.

Lemma strict_eq_false a b : strict_eq a b = false <-> a <> Some b.
Proof.
  rewrite <- strict_eq_true. destruct (strict_eq a b); split; congruence.
Qed.

Lemma includes_elem_of arr x : includes arr x = true <-> x ∈ arr.
Proof.
  induction arr as [|y rest IH]; simpl.
  - split; [discriminate | intros H; inversion H].
  - rewrite orb_true_iff, String.eqb_eq, IH, elem_of_cons.
    split; (intros [H|H]; [left; congruence | right; exact H]).
Qed.

(** [Array.prototype.filter] with an [includes] callback selects the entries
    whose value belongs to the allow-list. *)
Lemma filter_includes arr (choices : list PromptListChoice) :
  List.filter (fun choice => includes arr (value choice)) choices
  = filter (fun choice => value choice ∈ arr) choices.
Proof.
  induction choices as [|c rest IH]; simpl; [reflexivity|].
  rewrite filter_cons, <- IH.
  destruct (includes arr (value c)) eqn:E.
  - apply includes_elem_of in E. rewrite decide_True by exact E. reflexivity.
  - rewrite decide_False; [reflexivity|].
    intros H. apply includes_elem_of in H. congruence.
Qed.

Lemma List_filter_sublist {A} (f : A -> bool) (l : list A) :
  List.filter f l `sublist_of` l.
Proof.
  induction l as [|x l IH]; simpl.
  - constructor.
  - destruct (f x); [apply sublist_skip | apply sublist_cons]; exact IH.
Qed.

(** ** The option mapper *)

Lemma mapOptionsToChoices_cons o options :
  mapOptionsToChoices (o :: options) =
    match shouldDisplay o with
    | Some false => mapOptionsToChoices options
    | _ => {| name := displayName o; value := optionValue o |}
             :: mapOptionsToChoices options
    end.
Proof.
  unfold mapOptionsToChoices. simpl.
  destruct (shouldDisplay o) as [[|]|]; reflexivity.
Qed.

Lemma mapOptionsToChoices_Displayed options :
  Displayed options (mapOptionsToChoices options).
Proof.
  induction options as [|o options IH].
  - constructor.
  - rewrite mapOptionsToChoices_cons.
    destruct (shouldDisplay o) as [[|]|] eqn:E.
    + apply Displayed_keep; [congruence | exact IH].
    + apply Displayed_skip; [exact E | exact IH].
    + apply Displayed_keep; [congruence | exact IH].
Qed.

Lemma Displayed_functional options choices :
  Displayed options choices -> choices = mapOptionsToChoices options.
Proof.
  induction 1 as [|o options choices Hhide _ IH|o options choices Hshow _ IH].
  - reflexivity.
  - rewrite mapOptionsToChoices_cons, Hhide. exact IH.
  - rewrite mapOptionsToChoices_cons, IH.
    destruct (shouldDisplay o) as [[|]|]; congruence.
Qed.

(** C2: for every sequence of question options, [mapOptionsToChoices] returns
    exactly one choice [{name = displayName, value = value}] per option whose
    [shouldDisplay] is not [false] (an absent field counts as included), in
    the input's relative order, and nothing else; its length is the number of
    such options, and the empty input yields the empty output. *)
Theorem mapOptionsToChoices_correct (options : list QuestionOption) :
  (forall choices,
      Displayed options choices <-> choices = mapOptionsToChoices options)
  /\ List.length (mapOptionsToChoices options)
     = List.length (filter (fun o => shouldDisplay o <> Some false) options)
  /\ mapOptionsToChoices [] = [].
Proof.
  split; [|split].
  - intros choices. split.
    + apply Displayed_functional.
    + intros ->. apply mapOptionsToChoices_Displayed.
  - induction options as [|o options IH]; [reflexivity|].
    rewrite mapOptionsToChoices_cons, filter_cons.
    destruct (shouldDisplay o) as [[|]|] eqn:E.
    + rewrite decide_True by congruence. simpl. congruence.
    + rewrite decide_False by congruence. exact IH.
    + rewrite decide_True by congruence. simpl. congruence.
  - reflexivity.
Qed.

(** ** The two strategies *)

Lemma uiBuildFrontend_pre_built choices flags :
  uibuild flags = Some UIBuildType.PRE_BUILT ->
  uiBuildFrontend choices flags = Fulfilled choices.
Proof.
  intros H. unfold uiBuildFrontend.
  apply strict_eq_true in H. rewrite H. reflexivity.
Qed.

Lemma uiBuildFrontend_custom choices flags :
  uibuild flags <> Some UIBuildType.PRE_BUILT ->
  uiBuildFrontend choices flags =
    Fulfilled (filter (fun c => value c ∈ SUPPORTED_FRONTENDS_CUSTOM_UI) choices).
Proof.
  intros H. unfold uiBuildFrontend.
  apply strict_eq_false in H. rewrite H, filter_includes. reflexivity.
Qed.

Lemma uiBuildRecipe_pre_built choices flags :
  uibuild flags = Some UIBuildType.PRE_BUILT ->
  uiBuildRecipe choices flags = Fulfilled choices.
Proof.
  intros H. unfold uiBuildRecipe.
  apply strict_eq_true in H. rewrite H. reflexivity.
Qed.

Lemma uiBuildRecipe_conflict choices flags :
  uibuild flags <> Some UIBuildType.PRE_BUILT ->
  frontend flags <> Some "react" ->
  uiBuildRecipe choices flags = Rejected unsatisfiable.
Proof.
  intros Hu Hf. unfold uiBuildRecipe.
  apply strict_eq_false in Hu, Hf. rewrite Hu, Hf. reflexivity.
Qed.

Lemma uiBuildRecipe_custom_react choices flags :
  uibuild flags <> Some UIBuildType.PRE_BUILT ->
  frontend flags = Some "react" ->
  uiBuildRecipe choices flags =
    Fulfilled (filter (fun c => value c ∈ SUPPORTED_RECIPES_CUSTOM_UI) choices).
Proof.
  intros Hu Hf. unfold uiBuildRecipe.
  apply strict_eq_false in Hu. apply strict_eq_true in Hf.
  rewrite Hu, Hf, filter_includes. reflexivity.
Qed.

(** C1: the recipe strategy raises the error "No Recipes Available for the
    selected UI Build Type and Frontend" if and only if [uibuild] is not
    "pre-built" and [frontend] is not "react"; in every other case it returns
    a choice list. *)
Theorem uiBuildRecipe_raises_iff (choices : list PromptListChoice) (flags : UserFlags) :
  (uiBuildRecipe choices flags
     = Rejected
         (JsError "No Recipes Available for the selected UI Build Type and Frontend")
   <-> uibuild flags <> Some "pre-built" /\ frontend flags <> Some "react")
  /\ ((uibuild flags <> Some "pre-built" /\ frontend flags <> Some "react")
      \/ exists out, uiBuildRecipe choices flags = Fulfilled out).
Proof.
  destruct (decide (uibuild flags = Some "pre-built")) as [Hu|Hu].
  - rewrite (uiBuildRecipe_pre_built _ _ Hu).
    split; [split; [discriminate | intros [H _]; contradiction] | right; eauto].
  - destruct (decide (frontend flags = Some "react")) as [Hf|Hf].
    + rewrite (uiBuildRecipe_custom_react _ _ Hu Hf).
      split; [split; [discriminate | intros [_ H]; contradiction] | right; eauto].
    + rewrite (uiBuildRecipe_conflict _ _ Hu Hf).
      split; [split; [intros _; split; assumption | reflexivity] | left; split; assumption].
Qed.

(** C3: the UI-build/frontend strategy returns the input unchanged when
    [uibuild] is "pre-built" and otherwise exactly the input choices whose
    value is in the allow-list ["react"]; it never raises.  For flags
    [{uibuild: "custom", frontend: "react"}] and the choices React, Vue it
    returns only the react entry. *)
Theorem uiBuildFrontend_correct (choices : list PromptListChoice) (flags : UserFlags) :
  uiBuildFrontend choices flags
  = Fulfilled
      (if decide (uibuild flags = Some "pre-built") then choices
       else filter (fun c => value c ∈ ["react"]) choices)
  /\ uiBuildFrontend
       [ {| name := "React"; value := "react" |};
         {| name := "Vue"; value := "vue" |} ]
       {| uibuild := Some "custom"; frontend := Some "react" |}
     = Fulfilled [ {| name := "React"; value := "react" |} ].
Proof.
  split; [|reflexivity].
  destruct (decide (uibuild flags = Some "pre-built")) as [Hu|Hu].
  - apply uiBuildFrontend_pre_built, Hu.
  - apply uiBuildFrontend_custom, Hu.
Qed.

(** C4: with [uibuild] "pre-built" the recipe strategy returns the input
    unchanged; with [uibuild] not "pre-built" and [frontend] "react" it
    returns exactly the input choices whose value is in the allow-list
    ["emailpassword"; "thirdpartyemailpassword"]: of the choices
    emailpassword, thirdpartyemailpassword, passwordless it returns the first
    two. *)
Theorem uiBuildRecipe_correct (choices : list PromptListChoice) (flags : UserFlags) :
  (uibuild flags = Some "pre-built" ->
   uiBuildRecipe choices flags = Fulfilled choices)
  /\ (uibuild flags <> Some "pre-built" ->
      frontend flags = Some "react" ->
      uiBuildRecipe choices flags
      = Fulfilled
          (filter
             (fun c => value c ∈ ["emailpassword"; "thirdpartyemailpassword"])
             choices))
  /\ uiBuildRecipe
       [ {| name := "Email Password"; value := "emailpassword" |};
         {| name := "Social + Email Password"; value := "thirdpartyemailpassword" |};
         {| name := "Passwordless"; value := "passwordless" |} ]
       {| uibuild := Some "custom"; frontend := Some "react" |}
     = Fulfilled
         [ {| name := "Email Password"; value := "emailpassword" |};
           {| name := "Social + Email Password"; value := "thirdpartyemailpassword" |} ].
Proof.
  split; [|split].
  - apply uiBuildRecipe_pre_built.
  - apply uiBuildRecipe_custom_react.
  - reflexivity.
Qed.

(** The recipe strategy at [{uibuild: "pre-built"}] and at
    [{uibuild: "custom", frontend: "react"}]. *)
Lemma uiBuildRecipe_correct_witness :
  uiBuildRecipe [ {| name := "Passwordless"; value := "passwordless" |} ]
    {| uibuild := Some "pre-built"; frontend := None |}
  = Fulfilled [ {| name := "Passwordless"; value := "passwordless" |} ]
  /\ uiBuildRecipe
       [ {| name := "Passwordless"; value := "passwordless" |};
         {| name := "Email Password"; value := "emailpassword" |} ]
       {| uibuild := Some "custom"; frontend := Some "react" |}
     = Fulfilled
         (filter
            (fun c => value c ∈ ["emailpassword"; "thirdpartyemailpassword"])
            [ {| name := "Passwordless"; value := "passwordless" |};
              {| name := "Email Password"; value := "emailpassword" |} ]).
Proof.
  split.
  - apply (proj1 (uiBuildRecipe_correct _ _)). reflexivity.
  - apply (proj1 (proj2 (uiBuildRecipe_correct _ _))); [discriminate | reflexivity].
Defined.

(** ** Promises *)

Lemma await_Fulfilled_r {A} (p : Promise A) : await p Fulfilled = p.
Proof. destruct p; reflexivity. Qed.

Lemma await_assoc {A B C} (p : Promise A) (k : A -> Promise B) (h : B -> Promise C) :
  await (await p k) h = await p (fun a => await (k a) h).
Proof. destruct p; reflexivity. Qed.

Lemma await_ext {A B} (p : Promise A) (k h : A -> Promise B) :
  (forall a, k a = h a) -> await p k = await p h.
Proof. intros H. destruct p; simpl; [apply H | reflexivity]. Qed.

Lemma Promise_map_Fulfilled {A B} (g : A -> B) (p : Promise A) (b : B) :
  Promise_map g p = Fulfilled b <-> exists a, p = Fulfilled a /\ b = g a.
Proof.
  destruct p as [a|e]; simpl.
  - split; [intros [= <-]; eauto | intros (a' & [= <-] & ->); reflexivity].
  - split; [discriminate | intros (a' & H & _); discriminate].
Qed.

(** ** The strategies at run time *)

(** On an array the body of a strategy is the strategy of the typed
    signature. *)
Lemma runUiBuildFrontend_array choices flags :
  runUiBuildFrontend (VChoices choices) flags
  = Promise_map VChoices (uiBuildFrontend choices flags).
Proof.
  unfold runUiBuildFrontend, uiBuildFrontend.
  destruct (strict_eq (uibuild flags) UIBuildType.PRE_BUILT); reflexivity.
Qed.

Lemma runUiBuildRecipe_array choices flags :
  runUiBuildRecipe (VChoices choices) flags
  = Promise_map VChoices (uiBuildRecipe choices flags).
Proof.
  unfold runUiBuildRecipe, uiBuildRecipe.
  destruct (strict_eq (uibuild flags) UIBuildType.PRE_BUILT); [reflexivity|].
  destruct (strict_eq (frontend flags) "react"); reflexivity.
Qed.

(** A strategy never makes an array out of another value. *)
Lemma runUiBuildFrontend_VOther flags out :
  runUiBuildFrontend VOther flags <> Fulfilled (VChoices out).
Proof.
  unfold runUiBuildFrontend.
  destruct (strict_eq (uibuild flags) UIBuildType.PRE_BUILT); discriminate.
Qed.

Lemma runUiBuildRecipe_VOther flags out :
  runUiBuildRecipe VOther flags <> Fulfilled (VChoices out).
Proof.
  unfold runUiBuildRecipe.
  destruct (strict_eq (uibuild flags) UIBuildType.PRE_BUILT); [discriminate|].
  destruct (strict_eq (frontend flags) "react"); discriminate.
Qed.

Lemma call_inherited_array m v out :
  call_inherited m v = Fulfilled (VChoices out) -> v = VChoices out.
Proof. destruct m; simpl; congruence. Qed.

(** The names of [Object.prototype] are non-empty and none is a numeral. *)
Lemma falsy_not_inherited (s : EnumValue) :
  truthy s = false -> ~ names_inherited s.
Proof.
  unfold names_inherited. destruct s as [n|k]; simpl.
  - rewrite negb_false_iff, Z.eqb_eq. intros ->. vm_compute. intros [x H]. discriminate H.
  - rewrite negb_false_iff, String.eqb_eq. intros ->. vm_compute. intros [x H]. discriminate H.
Qed.

(** ** The registry and the composition function *)

Section EngineProperties.

Variables UI_BUILD_FRONTEND UI_BUILD_RECIPE : EnumValue.

Local Abbreviation STRATEGIES := (STRATEGIES UI_BUILD_FRONTEND UI_BUILD_RECIPE).
Local Abbreviation STRATEGIES_get := (STRATEGIES_get UI_BUILD_FRONTEND UI_BUILD_RECIPE).
Local Abbreviation apply_filters := (apply_filters UI_BUILD_FRONTEND UI_BUILD_RECIPE).
Local Abbreviation filterChoices := (filterChoices UI_BUILD_FRONTEND UI_BUILD_RECIPE).
Local Abbreviation registered := (registered UI_BUILD_FRONTEND UI_BUILD_RECIPE).
Local Abbreviation own_or_absent := (own_or_absent UI_BUILD_FRONTEND UI_BUILD_RECIPE).
Local Abbreviation strategy_name := (strategy_name UI_BUILD_FRONTEND UI_BUILD_RECIPE).

Lemma STRATEGIES_lookup (k : string) :
  STRATEGIES !! k =
    if decide (property_key UI_BUILD_RECIPE = k) then Some runUiBuildRecipe
    else if decide (property_key UI_BUILD_FRONTEND = k) then Some runUiBuildFrontend
    else None.
Proof.
  unfold_registry. rewrite !lookup_insert, lookup_empty. reflexivity.
Qed.

Lemma STRATEGIES_get_by_name (s : EnumValue) :
  STRATEGIES_get s =
    match strategy_name s with
    | Some Recipe => Own runUiBuildRecipe
    | Some Frontend => Own runUiBuildFrontend
    | None =>
        match OBJECT_PROTOTYPE !! property_key s with
        | Some m => FromPrototype m
        | None => Undefined
        end
    end.
Proof.
  unfold_get. rewrite STRATEGIES_lookup. unfold_strategy_name.
  repeat case_decide; reflexivity.
Qed.

Lemma strategy_name_None (s : EnumValue) :
  strategy_name s = None <-> ~ registered s.
Proof.
  unfold_strategy_name. unfold_registered.
  rewrite !elem_of_cons, elem_of_nil.
  repeat case_decide; intuition congruence.
Qed.

Lemma STRATEGIES_get_skipped (s : EnumValue) :
  ~ registered s -> ~ names_inherited s -> STRATEGIES_get s = Undefined.
Proof.
  intros Hreg Hinh. rewrite STRATEGIES_get_by_name.
  apply strategy_name_None in Hreg. rewrite Hreg.
  unfold names_inherited in Hinh.
  destruct (OBJECT_PROTOTYPE !! property_key s); [|reflexivity].
  exfalso. apply Hinh. eauto.
Qed.

Lemma STRATEGIES_get_Own (s : EnumValue) (f : JsStrategy) :
  STRATEGIES_get s = Own f ->
  registered s /\ (f = runUiBuildFrontend \/ f = runUiBuildRecipe).
Proof.
  rewrite STRATEGIES_get_by_name.
  destruct (strategy_name s) as [[|]|] eqn:E.
  - intros [= <-]. split; [|auto].
    destruct (decide (registered s)) as [H|H]; [exact H|].
    apply strategy_name_None in H. congruence.
  - intros [= <-]. split; [|auto].
    destruct (decide (registered s)) as [H|H]; [exact H|].
    apply strategy_name_None in H. congruence.
  - destruct (OBJECT_PROTOTYPE !! property_key s); discriminate.
Qed.

Lemma STRATEGIES_get_registered (s : EnumValue) :
  registered s ->
  exists f, STRATEGIES_get s = Own f
            /\ (f = runUiBuildFrontend \/ f = runUiBuildRecipe).
Proof.
  intros H. rewrite STRATEGIES_get_by_name.
  destruct (strategy_name s) as [[|]|] eqn:E; eauto.
  apply strategy_name_None in E. contradiction.
Qed.

Lemma STRATEGIES_get_own_or_absent (s : EnumValue) (m : Inherited) :
  own_or_absent s -> STRATEGIES_get s <> FromPrototype m.
Proof.
  unfold_own_or_absent. intros [Hreg|Hinh].
  - destruct (STRATEGIES_get_registered s Hreg) as (f & -> & _). discriminate.
  - rewrite STRATEGIES_get_by_name. unfold names_inherited in Hinh.
    destruct (strategy_name s) as [[|]|]; try discriminate.
    destruct (OBJECT_PROTOTYPE !! property_key s); [|discriminate].
    exfalso. apply Hinh. eauto.
Qed.

Lemma apply_filters_app flags l1 l2 choices :
  apply_filters flags (l1 ++ l2) choices
  = await (apply_filters flags l1 choices) (apply_filters flags l2).
Proof.
  revert choices. induction l1 as [|s l1 IH]; intros choices; [reflexivity|].
  rewrite <- app_comm_cons. step_loop.
  destruct (STRATEGIES_get s) as [f|m|]; [| |apply IH];
    rewrite await_assoc; apply await_ext; intros c; apply IH.
Qed.

Lemma apply_filters_skip flags s rest choices :
  ~ registered s -> ~ names_inherited s ->
  apply_filters flags (s :: rest) choices = apply_filters flags rest choices.
Proof.
  intros Hreg Hinh. step_loop.
  rewrite (STRATEGIES_get_skipped s Hreg Hinh). reflexivity.
Qed.


(** With an array as strategy the function resolves the choices and runs
    the loop; the early return for the empty array agrees with the loop. *)
Lemma filterChoices_Sequence flags arg l :
  filterChoices flags arg (Sequence l) = await (resolve arg) (apply_filters flags l).
Proof.
  unfold_engine. destruct (resolve arg) as [choices|e]; simpl; [|reflexivity].
  destruct l; reflexivity.
Qed.

Lemma filterChoices_Single_truthy flags arg s :
  truthy s = true ->
  filterChoices flags arg (Single s) = await (resolve arg) (apply_filters flags [s]).
Proof.
  intros H. unfold_engine.
  destruct (resolve arg) as [choices|e]; simpl; [|reflexivity].
  rewrite H. reflexivity.
Qed.

Lemma filterChoices_Single_falsy flags arg s :
  truthy s = false ->
  filterChoices flags arg (Single s) = resolve arg.
Proof.
  intros H. unfold_engine.
  destruct (resolve arg) as [choices|e]; simpl; [|reflexivity].
  rewrite H. reflexivity.
Qed.

(** C5: with the strategy argument omitted [filterChoices] returns the
    choices unchanged (a pending list is returned as it settles), and an
    empty strategy array behaves as an omitted strategy. *)
Theorem filterChoices_identity (flags : UserFlags) (choices : list PromptListChoice) :
  filterChoices flags (Plain choices) Omitted = Fulfilled (VChoices choices)
  /\ filterChoices flags (Plain choices) (Sequence []) = Fulfilled (VChoices choices)
  /\ forall arg,
       filterChoices flags arg Omitted = resolve arg
       /\ filterChoices flags arg (Sequence [])
          = filterChoices flags arg Omitted.
Proof.
  split; [reflexivity|split; [reflexivity|]].
  intros arg. unfold_engine.
  destruct (resolve arg); split; reflexivity.
Qed.



End EngineProperties.

(** C8: with a custom function [f] as strategy, [filterChoices] returns
    [f(choices)]: neither the registry nor the flags take part, and an error
    raised by [f] is the error of the result. *)
Theorem filterChoices_custom (UI_BUILD_FRONTEND UI_BUILD_RECIPE : EnumValue)
    (flags : UserFlags) (choices : list PromptListChoice)
    (f : JsValue -> Promise JsValue) :
  filterChoices UI_BUILD_FRONTEND UI_BUILD_RECIPE flags (Plain choices) (Custom f)
  = f (VChoices choices)
  /\ (forall p,
        filterChoices UI_BUILD_FRONTEND UI_BUILD_RECIPE flags (Pending p) (Custom f)
        = await p f)
  /\ (forall frontend_id recipe_id flags' arg,
        filterChoices frontend_id recipe_id flags' arg (Custom f)
        = filterChoices UI_BUILD_FRONTEND UI_BUILD_RECIPE flags arg (Custom f))
  /\ (forall e,
        f (VChoices choices) = Rejected e ->
        filterChoices UI_BUILD_FRONTEND UI_BUILD_RECIPE flags (Plain choices) (Custom f)
        = Rejected e).
Proof.
  split; [reflexivity|split; [|split]].
  - intros p. unfold filterChoices. simpl. apply await_ext. reflexivity.
  - intros frontend_id recipe_id flags' arg. reflexivity.
  - intros e He. exact He.
Qed.

(** A custom function that throws a value of its own. *)
Lemma filterChoices_custom_witness :
  filterChoices (EStr "UI_BUILD_FRONTEND") (EStr "UI_BUILD_RECIPE")
    {| uibuild := Some "custom"; frontend := Some "vue" |}
    (Plain [ {| name := "Vue"; value := "vue" |} ])
    (Custom (fun _ => Rejected (JsOther "offline")))
  = Rejected (JsOther "offline").
Proof.
  apply (proj2 (proj2 (proj2
    (filterChoices_custom (EStr "UI_BUILD_FRONTEND") (EStr "UI_BUILD_RECIPE")
       {| uibuild := Some "custom"; frontend := Some "vue" |}
       [ {| name := "Vue"; value := "vue" |} ]
       (fun _ => Rejected (JsOther "offline")))))).
  reflexivity.
Defined.

(** ** Strategies only narrow *)

Lemma uiBuildFrontend_narrows : narrows uiBuildFrontend.
Proof.
  intros choices flags out. unfold uiBuildFrontend.
  destruct (strict_eq (uibuild flags) UIBuildType.PRE_BUILT); intros [= <-].
  - reflexivity.
  - apply List_filter_sublist.
Qed.

Lemma uiBuildRecipe_narrows : narrows uiBuildRecipe.
Proof.
  intros choices flags out. unfold uiBuildRecipe.
  destruct (strict_eq (uibuild flags) UIBuildType.PRE_BUILT); [intros [= <-]; reflexivity|].
  destruct (strict_eq (frontend flags) "react"); simpl; [|discriminate].
  intros [= <-]. apply List_filter_sublist.
Qed.

Lemma sublist_by_value (out choices : list PromptListChoice) :
  out `sublist_of` choices -> value <$> out ⊆ value <$> choices.
Proof. intros H. apply sublist_subseteq, fmap_sublist, H. Qed.

(** At run time: an array comes out of a strategy only when an array went
    in, and is then a subsequence of it. *)
Lemma runUiBuildFrontend_narrows v flags out :
  runUiBuildFrontend v flags = Fulfilled (VChoices out) ->
  exists choices, v = VChoices choices /\ out `sublist_of` choices.
Proof.
  destruct v as [choices|]; [|intros H; destruct (runUiBuildFrontend_VOther _ _ H)].
  rewrite runUiBuildFrontend_array, Promise_map_Fulfilled.
  intros (a & Ha & [= ->]). exists choices. split; [reflexivity|].
  exact (uiBuildFrontend_narrows _ _ _ Ha).
Qed.

Lemma runUiBuildRecipe_narrows v flags out :
  runUiBuildRecipe v flags = Fulfilled (VChoices out) ->
  exists choices, v = VChoices choices /\ out `sublist_of` choices.
Proof.
  destruct v as [choices|]; [|intros H; destruct (runUiBuildRecipe_VOther _ _ H)].
  rewrite runUiBuildRecipe_array, Promise_map_Fulfilled.
  intros (a & Ha & [= ->]). exists choices. split; [reflexivity|].
  exact (uiBuildRecipe_narrows _ _ _ Ha).
Qed.

Section Narrowing.

Variables UI_BUILD_FRONTEND UI_BUILD_RECIPE : EnumValue.

Local Abbreviation STRATEGIES_get := (STRATEGIES_get UI_BUILD_FRONTEND UI_BUILD_RECIPE).
Local Abbreviation apply_filters := (apply_filters UI_BUILD_FRONTEND UI_BUILD_RECIPE).
Local Abbreviation filterChoices := (filterChoices UI_BUILD_FRONTEND UI_BUILD_RECIPE).

Lemma STRATEGIES_narrow (s : EnumValue) (f : JsStrategy) v flags out :
  STRATEGIES_get s = Own f ->
  f v flags = Fulfilled (VChoices out) ->
  exists choices, v = VChoices choices /\ out `sublist_of` choices.
Proof.
  intros Hf. destruct (STRATEGIES_get_Own _ _ _ _ Hf) as [_ [-> | ->]].
  - apply runUiBuildFrontend_narrows.
  - apply runUiBuildRecipe_narrows.
Qed.

Lemma apply_filters_sublist flags l v out :
  apply_filters flags l v = Fulfilled (VChoices out) ->
  exists choices, v = VChoices choices /\ out `sublist_of` choices.
Proof.
  revert v. induction l as [|s l IH]; intros v; step_loop.
  - intros [= ->]. exists out. split; reflexivity.
  - destruct (STRATEGIES_get s) as [f|m|] eqn:Es; [| |apply IH].
    + destruct (f v flags) as [mid|e] eqn:Emid; cbn [await]; [|discriminate].
      intros Hout. destruct (IH _ Hout) as (c & -> & Hsub).
      destruct (STRATEGIES_narrow _ _ _ _ _ Es Emid) as (choices & -> & Hsub').
      exists choices. split; [reflexivity|]. transitivity c; assumption.
    + destruct (call_inherited m v) as [mid|e] eqn:Emid; cbn [await]; [|discriminate].
      intros Hout. destruct (IH _ Hout) as (c & -> & Hsub).
      apply call_inherited_array in Emid. exists c. split; assumption.
Qed.

Lemma filterChoices_sublist flags choices strategy out :
  (forall f, strategy <> Custom f) ->
  filterChoices flags (Plain choices) strategy = Fulfilled (VChoices out) ->
  out `sublist_of` choices.
Proof.
  intros Hreg. destruct strategy as [|s|l|f].
  - intros [= <-]. reflexivity.
  - destruct (truthy s) eqn:E.
    + rewrite (filterChoices_Single_truthy _ _ _ _ _ E). cbn [resolve await].
      intros H. apply apply_filters_sublist in H.
      destruct H as (c & [= <-] & Hsub). exact Hsub.
    + rewrite (filterChoices_Single_falsy _ _ _ _ _ E). intros [= <-]. reflexivity.
  - rewrite filterChoices_Sequence. cbn [resolve await].
    intros H. apply apply_filters_sublist in H.
    destruct H as (c & [= <-] & Hsub). exact Hsub.
  - destruct (Hreg f eq_refl).
Qed.

(** C9: each of the two registered strategies, whenever it returns, returns
    a subset by value of its input: no choice value is introduced; hence
    [filterChoices] with a sequence of identifiers (or a single one) also
    returns a subset of its input. *)
Theorem strategies_return_subset (flags : UserFlags)
    (choices out : list PromptListChoice) :
  (uiBuildFrontend choices flags = Fulfilled out ->
   value <$> out ⊆ value <$> choices)
  /\ (uiBuildRecipe choices flags = Fulfilled out ->
      value <$> out ⊆ value <$> choices)
  /\ (forall l,
        filterChoices flags (Plain choices) (Sequence l) = Fulfilled (VChoices out) ->
        value <$> out ⊆ value <$> choices)
  /\ (forall s,
        filterChoices flags (Plain choices) (Single s) = Fulfilled (VChoices out) ->
        value <$> out ⊆ value <$> choices).
Proof.
  repeat split.
  - intros H. apply sublist_by_value, (uiBuildFrontend_narrows _ _ _ H).
  - intros H. apply sublist_by_value, (uiBuildRecipe_narrows _ _ _ H).
  - intros l H. eapply sublist_by_value, filterChoices_sublist, H. discriminate.
  - intros s H. eapply sublist_by_value, filterChoices_sublist, H. discriminate.
Qed.

(** C10: each registered strategy's successful output is a subsequence of
    its input (the survivors keep their relative order and none is
    duplicated); hence [filterChoices] with a sequence of identifiers (or a
    single one) preserves the relative order of the input. *)
Theorem strategies_return_subsequence (flags : UserFlags)
    (choices out : list PromptListChoice) :
  (uiBuildFrontend choices flags = Fulfilled out -> out `sublist_of` choices)
  /\ (uiBuildRecipe choices flags = Fulfilled out -> out `sublist_of` choices)
  /\ (forall l,
        filterChoices flags (Plain choices) (Sequence l) = Fulfilled (VChoices out) ->
        out `sublist_of` choices)
  /\ (forall s,
        filterChoices flags (Plain choices) (Single s) = Fulfilled (VChoices out) ->
        out `sublist_of` choices).
Proof.
  repeat split.
  - apply uiBuildFrontend_narrows.
  - apply uiBuildRecipe_narrows.
  - intros l H. eapply filterChoices_sublist, H. discriminate.
  - intros s H. eapply filterChoices_sublist, H. discriminate.
Qed.

End Narrowing.

(** ** A closed form of the loop *)

Lemma List_filter_true {A} (f : A -> bool) (l : list A) :
  (forall x, f x = true) -> List.filter f l = l.
Proof.
  intros H. induction l as [|x l IH]; simpl; [reflexivity|].
  rewrite H, IH. reflexivity.
Qed.

Lemma List_filter_false {A} (f : A -> bool) (l : list A) :
  (forall x, f x = false) -> List.filter f l = [].
Proof.
  intros H. induction l as [|x l IH]; simpl; [reflexivity|].
  rewrite H. exact IH.
Qed.

Lemma List_filter_andb {A} (f g : A -> bool) (l : list A) :
  List.filter g (List.filter f l) = List.filter (fun x => f x && g x) l.
Proof.
  induction l as [|x l IH]; simpl; [reflexivity|].
  destruct (f x); simpl; [destruct (g x)|]; rewrite IH; reflexivity.
Qed.

Lemma List_filter_pointwise {A} (f g : A -> bool) (l : list A) :
  (forall x, f x = g x) -> List.filter f l = List.filter g l.
Proof.
  intros H. induction l as [|x l IH]; simpl; [reflexivity|].
  rewrite H, IH. reflexivity.
Qed.

Section ClosedFormProperties.

Variables UI_BUILD_FRONTEND UI_BUILD_RECIPE : EnumValue.

Local Abbreviation STRATEGIES_get := (STRATEGIES_get UI_BUILD_FRONTEND UI_BUILD_RECIPE).
Local Abbreviation apply_filters := (apply_filters UI_BUILD_FRONTEND UI_BUILD_RECIPE).
Local Abbreviation filterChoices := (filterChoices UI_BUILD_FRONTEND UI_BUILD_RECIPE).
Local Abbreviation own_or_absent := (own_or_absent UI_BUILD_FRONTEND UI_BUILD_RECIPE).
Local Abbreviation strategy_name := (strategy_name UI_BUILD_FRONTEND UI_BUILD_RECIPE).
Local Abbreviation admits := (admits UI_BUILD_FRONTEND UI_BUILD_RECIPE).
Local Abbreviation names_recipe := (names_recipe UI_BUILD_FRONTEND UI_BUILD_RECIPE).

(** One turn of the loop for an identifier whose lookup ends in the
    registry. *)
Lemma apply_filters_cons flags s rest choices :
  own_or_absent s ->
  apply_filters flags (s :: rest) choices =
    match strategy_name s with
    | Some Recipe =>
        await (runUiBuildRecipe choices flags) (apply_filters flags rest)
    | Some Frontend =>
        await (runUiBuildFrontend choices flags) (apply_filters flags rest)
    | None => apply_filters flags rest choices
    end.
Proof.
  intros Hs. step_loop.
  pose proof (STRATEGIES_get_own_or_absent UI_BUILD_FRONTEND UI_BUILD_RECIPE s) as Hown.
  rewrite STRATEGIES_get_by_name in *.
  destruct (strategy_name s) as [[|]|]; try reflexivity.
  destruct (OBJECT_PROTOTYPE !! property_key s) as [m|]; [|reflexivity].
  destruct (Hown m Hs eq_refl).
Qed.

Lemma apply_filters_pre_built flags l choices :
  Forall own_or_absent l ->
  uibuild flags = Some UIBuildType.PRE_BUILT ->
  apply_filters flags l choices = Fulfilled choices.
Proof.
  intros Hall H. apply strict_eq_true in H.
  induction Hall as [|s l Hs _ IH]; [reflexivity|].
  rewrite apply_filters_cons by exact Hs.
  unfold runUiBuildFrontend, runUiBuildRecipe. rewrite H.
  destruct (strategy_name s) as [[|]|]; exact IH.
Qed.

Lemma apply_filters_custom flags l choices :
  Forall own_or_absent l ->
  uibuild flags <> Some UIBuildType.PRE_BUILT ->
  apply_filters flags l (VChoices choices) =
    if names_recipe l && negb (strict_eq (frontend flags) "react")
    then Rejected unsatisfiable
    else Fulfilled (VChoices (List.filter (admits l) choices)).
Proof.
  intros Hall Hu. apply strict_eq_false in Hu.
  revert choices. induction Hall as [|s l Hs _ IH]; intros choices.
  - simpl. rewrite List_filter_true; reflexivity.
  - rewrite apply_filters_cons by exact Hs.
    unfold_admits. cbn [existsb forallb].
    destruct (strategy_name s) as [[|]|].
    + unfold runUiBuildFrontend. rewrite Hu. cbn [array_filter await]. rewrite IH.
      rewrite List_filter_andb. reflexivity.
    + unfold runUiBuildRecipe. rewrite Hu.
      destruct (strict_eq (frontend flags) "react") eqn:Hf;
        cbn [negb array_filter await orb andb].
      * rewrite IH. rewrite ?Hf. cbn [negb].
        rewrite andb_false_r, List_filter_andb. reflexivity.
      * reflexivity.
    + rewrite IH. reflexivity.
Qed.

Lemma names_recipe_true (l : list EnumValue) :
  names_recipe l = true <->
  exists s, s ∈ l /\ property_key s = property_key UI_BUILD_RECIPE.
Proof.
  unfold_names_recipe. rewrite existsb_exists. split.
  - intros (s & Hin & Hs). exists s. split; [apply list_elem_of_In, Hin|].
    revert Hs. unfold_strategy_name. repeat case_decide; congruence.
  - intros (s & Hin & Hs). exists s. split; [apply list_elem_of_In, Hin|].
    unfold_strategy_name. rewrite decide_True by congruence. reflexivity.
Qed.

Lemma names_recipe_same_set (l l' : list EnumValue) :
  (forall s, s ∈ l <-> s ∈ l') -> names_recipe l = names_recipe l'.
Proof.
  intros H. apply eq_true_iff_eq. rewrite !names_recipe_true.
  split; intros (s & Hin & Hs); exists s; (split; [apply H, Hin | exact Hs]).
Qed.

Lemma admits_same_set (l l' : list EnumValue) (choice : PromptListChoice) :
  (forall s, s ∈ l <-> s ∈ l') -> admits l choice = admits l' choice.
Proof.
  intros H. apply eq_true_iff_eq. unfold_admits. rewrite !forallb_forall.
  split; intros Hall s Hin; apply Hall, list_elem_of_In, H, list_elem_of_In, Hin.
Qed.

Lemma own_or_absent_same_set (l l' : list EnumValue) :
  (forall s, s ∈ l <-> s ∈ l') ->
  Forall own_or_absent l -> Forall own_or_absent l'.
Proof.
  intros H. rewrite !Forall_forall. intros Hall s Hin. apply Hall, H, Hin.
Qed.

Lemma apply_filters_same_set flags (l l' : list EnumValue) choices :
  Forall own_or_absent l ->
  (forall s, s ∈ l <-> s ∈ l') ->
  apply_filters flags l (VChoices choices) = apply_filters flags l' (VChoices choices).
Proof.
  intros Hall H. pose proof (own_or_absent_same_set l l' H Hall) as Hall'.
  destruct (decide (uibuild flags = Some UIBuildType.PRE_BUILT)) as [Hu|Hu].
  - rewrite !apply_filters_pre_built by assumption. reflexivity.
  - rewrite !apply_filters_custom by assumption.
    rewrite (names_recipe_same_set l l' H).
    rewrite (List_filter_pointwise (admits l) (admits l')); [reflexivity|].
    intros c. apply admits_same_set, H.
Qed.

(** The loop started on an array, seen through a promise of an array. *)
Lemma await_same_set flags (l l' : list EnumValue)
    (p : Promise (list PromptListChoice)) :
  Forall own_or_absent l ->
  (forall s, s ∈ l <-> s ∈ l') ->
  await (Promise_map VChoices p) (apply_filters flags l)
  = await (Promise_map VChoices p) (apply_filters flags l').
Proof.
  intros Hall H. destruct p as [choices|e]; [|reflexivity].
  apply apply_filters_same_set; assumption.
Qed.

End ClosedFormProperties.

(** ** Further properties of the composition function *)

Section EngineExtras.

Variables UI_BUILD_FRONTEND UI_BUILD_RECIPE : EnumValue.

Local Abbreviation STRATEGIES_get := (STRATEGIES_get UI_BUILD_FRONTEND UI_BUILD_RECIPE).
Local Abbreviation apply_filters := (apply_filters UI_BUILD_FRONTEND UI_BUILD_RECIPE).
Local Abbreviation filterChoices := (filterChoices UI_BUILD_FRONTEND UI_BUILD_RECIPE).
Local Abbreviation registered := (registered UI_BUILD_FRONTEND UI_BUILD_RECIPE).
Local Abbreviation own_or_absent := (own_or_absent UI_BUILD_FRONTEND UI_BUILD_RECIPE).
Local Abbreviation strategy_name := (strategy_name UI_BUILD_FRONTEND UI_BUILD_RECIPE).
Local Abbreviation admits := (admits UI_BUILD_FRONTEND UI_BUILD_RECIPE).
Local Abbreviation names_recipe := (names_recipe UI_BUILD_FRONTEND UI_BUILD_RECIPE).

Lemma strategy_name_recipe : strategy_name UI_BUILD_RECIPE = Some Recipe.
Proof. unfold_strategy_name. rewrite decide_True; reflexivity. Qed.

Lemma strategy_name_frontend :
  property_key UI_BUILD_FRONTEND <> property_key UI_BUILD_RECIPE ->
  strategy_name UI_BUILD_FRONTEND = Some Frontend.
Proof.
  intros H. unfold_strategy_name.
  rewrite decide_False by congruence. rewrite decide_True; reflexivity.
Qed.

Lemma strategy_name_collision :
  property_key UI_BUILD_FRONTEND = property_key UI_BUILD_RECIPE ->
  strategy_name UI_BUILD_FRONTEND = Some Recipe.
Proof. intros H. unfold_strategy_name. rewrite decide_True by congruence. reflexivity. Qed.

Lemma admits_elem (l : list EnumValue) (c : PromptListChoice) (s : EnumValue)
    (n : StrategyName) :
  admits l c = true -> s ∈ l -> strategy_name s = Some n ->
  value c ∈ allow_list n.
Proof.
  unfold_admits. rewrite forallb_forall. intros Hall Hin Hn.
  apply list_elem_of_In in Hin. specialize (Hall s Hin). rewrite Hn in Hall.
  apply includes_elem_of, Hall.
Qed.

(** X1: a pending choices argument behaves as the value it settles to: a
    fulfilled promise as the plain list, and a rejected one is the result,
    whatever the strategy (a custom function is not called). *)
Theorem filterChoices_pending (flags : UserFlags) (strategy : StrategyArg) :
  (forall choices,
      filterChoices flags (Pending (Fulfilled (VChoices choices))) strategy
      = filterChoices flags (Plain choices) strategy)
  /\ (forall e,
        filterChoices flags (Pending (Rejected e)) strategy = Rejected e).
Proof. split; reflexivity. Qed.

(** X2: with [uibuild] "pre-built", [filterChoices] with identifiers whose
    lookup ends in the registry (registered, or naming no inherited
    property), one or a sequence, returns the choices unchanged and never
    raises. *)
Theorem filterChoices_pre_built (flags : UserFlags)
    (choices : list PromptListChoice) :
  uibuild flags = Some "pre-built" ->
  (forall l,
      Forall own_or_absent l ->
      filterChoices flags (Plain choices) (Sequence l) = Fulfilled (VChoices choices))
  /\ (forall s,
        own_or_absent s ->
        filterChoices flags (Plain choices) (Single s) = Fulfilled (VChoices choices)).
Proof.
  intros Hu. split.
  - intros l Hl. rewrite filterChoices_Sequence. cbn [resolve await].
    apply apply_filters_pre_built; assumption.
  - intros s Hs. destruct (truthy s) eqn:E.
    + rewrite (filterChoices_Single_truthy _ _ _ _ _ E). cbn [resolve await].
      apply apply_filters_pre_built; [|exact Hu]. constructor; [exact Hs|constructor].
    + rewrite (filterChoices_Single_falsy _ _ _ _ _ E). reflexivity.
Qed.

(** X3: on a plain list and a sequence of identifiers whose lookup ends in
    the registry, [filterChoices] raises exactly when [uibuild] is not
    "pre-built", [frontend] is not "react" and some identifier of the
    sequence has the key of the recipe strategy; the error is then the one
    of the recipe strategy. *)
Theorem filterChoices_rejects_iff (flags : UserFlags)
    (choices : list PromptListChoice) (l : list EnumValue) (e : Thrown) :
  Forall own_or_absent l ->
  filterChoices flags (Plain choices) (Sequence l) = Rejected e
  <-> e = JsError "No Recipes Available for the selected UI Build Type and Frontend"
      /\ uibuild flags <> Some "pre-built"
      /\ frontend flags <> Some "react"
      /\ exists s, s ∈ l /\ property_key s = property_key UI_BUILD_RECIPE.
Proof.
  intros Hl. rewrite filterChoices_Sequence. cbn [resolve await].
  destruct (decide (uibuild flags = Some UIBuildType.PRE_BUILT)) as [Hu|Hu].
  - rewrite apply_filters_pre_built by assumption.
    split; [discriminate | intros (_ & H & _); contradiction].
  - rewrite apply_filters_custom by assumption.
    destruct (names_recipe l) eqn:En;
      destruct (strict_eq (frontend flags) "react") eqn:Ef; cbn [andb negb].
    + split; [discriminate|]. intros (_ & _ & Hfr & _).
      apply strict_eq_true in Ef. contradiction.
    + split.
      * intros [= <-]. split; [reflexivity|]. split; [exact Hu|].
        split; [apply strict_eq_false, Ef|].
        apply (names_recipe_true UI_BUILD_FRONTEND), En.
      * intros (-> & _). reflexivity.
    + split; [discriminate|]. intros (_ & _ & _ & Hex).
      apply (names_recipe_true UI_BUILD_FRONTEND) in Hex. congruence.
    + split; [discriminate|]. intros (_ & _ & _ & Hex).
      apply (names_recipe_true UI_BUILD_FRONTEND) in Hex. congruence.
Qed.

(** X4: for identifiers whose lookup ends in the registry, the result on an
    array (plain or promised) depends only on which identifiers occur in the
    sequence, not on their order or on how often each occurs. *)
Theorem filterChoices_same_identifiers (flags : UserFlags) (l l' : list EnumValue) :
  Forall own_or_absent l ->
  (forall s, s ∈ l <-> s ∈ l') ->
  (forall choices,
      filterChoices flags (Plain choices) (Sequence l)
      = filterChoices flags (Plain choices) (Sequence l'))
  /\ (forall p : Promise (list PromptListChoice),
        filterChoices flags (Pending (Promise_map VChoices p)) (Sequence l)
        = filterChoices flags (Pending (Promise_map VChoices p)) (Sequence l')).
Proof.
  intros Hl H. split.
  - intros choices. rewrite !filterChoices_Sequence. cbn [resolve await].
    apply apply_filters_same_set; assumption.
  - intros p. rewrite !filterChoices_Sequence. cbn [resolve].
    apply await_same_set; assumption.
Qed.

(** X5: filtering is idempotent: for identifiers whose lookup ends in the
    registry, passing the result of a chain on an array (plain or promised)
    through the same chain again changes nothing. *)
Theorem filterChoices_idempotent (flags : UserFlags) (l : list EnumValue) :
  Forall own_or_absent l ->
  (forall choices,
      filterChoices flags
        (Pending (filterChoices flags (Plain choices) (Sequence l))) (Sequence l)
      = filterChoices flags (Plain choices) (Sequence l))
  /\ (forall p : Promise (list PromptListChoice),
        filterChoices flags
          (Pending (filterChoices flags (Pending (Promise_map VChoices p)) (Sequence l)))
          (Sequence l)
        = filterChoices flags (Pending (Promise_map VChoices p)) (Sequence l)).
Proof.
  intros Hl.
  assert (Hrun : forall choices,
    await (apply_filters flags l (VChoices choices)) (apply_filters flags l)
    = apply_filters flags l (VChoices choices)).
  { intros choices. rewrite <- apply_filters_app.
    apply apply_filters_same_set.
    - apply Forall_app. split; exact Hl.
    - intros s. rewrite elem_of_app. tauto. }
  split.
  - intros choices. rewrite !filterChoices_Sequence. cbn [resolve await].
    apply Hrun.
  - intros p. rewrite !filterChoices_Sequence. cbn [resolve].
    destruct p as [choices|e]; [|reflexivity]. cbn [Promise_map await].
    apply Hrun.
Qed.

(** X6: the registry dispatches on the key: the recipe identifier runs the
    recipe strategy; the frontend identifier runs the frontend strategy when
    the two keys differ, and the recipe strategy when they coincide (the
    later property of the object literal wins). *)
Theorem filterChoices_dispatch (flags : UserFlags) (choices : list PromptListChoice) :
  filterChoices flags (Plain choices) (Sequence [UI_BUILD_RECIPE])
  = Promise_map VChoices (uiBuildRecipe choices flags)
  /\ (property_key UI_BUILD_FRONTEND <> property_key UI_BUILD_RECIPE ->
      filterChoices flags (Plain choices) (Sequence [UI_BUILD_FRONTEND])
      = Promise_map VChoices (uiBuildFrontend choices flags))
  /\ (property_key UI_BUILD_FRONTEND = property_key UI_BUILD_RECIPE ->
      filterChoices flags (Plain choices) (Sequence [UI_BUILD_FRONTEND])
      = Promise_map VChoices (uiBuildRecipe choices flags)).
Proof.
  rewrite !filterChoices_Sequence. cbn [resolve await]. step_loop.
  rewrite !STRATEGIES_get_by_name.
  rewrite <- runUiBuildRecipe_array, <- runUiBuildFrontend_array.
  split; [|split].
  - rewrite strategy_name_recipe. apply await_Fulfilled_r.
  - intros H. rewrite (strategy_name_frontend H). apply await_Fulfilled_r.
  - intros H. rewrite (strategy_name_collision H). apply await_Fulfilled_r.
Qed.

(** X7: a single identifier [s] behaves as the array [[s]] on all flags and
    choices exactly when its runtime value is truthy or it is not
    registered. *)
Theorem filterChoices_single_iff (s : EnumValue) :
  (forall flags choices,
      filterChoices flags (Plain choices) (Single s)
      = filterChoices flags (Plain choices) (Sequence [s]))
  <-> truthy s = true \/ ~ registered s.
Proof.
  split.
  - intros H. destruct (truthy s) eqn:E; [left; reflexivity|right].
    intros Hreg.
    specialize (H {| uibuild := None; frontend := None |}
                  [ {| name := "Vue"; value := "vue" |} ]).
    rewrite (filterChoices_Single_falsy _ _ _ _ _ E) in H.
    rewrite filterChoices_Sequence in H. cbn [resolve await] in H.
    destruct (STRATEGIES_get_registered _ _ _ Hreg) as (f & Hf & Hcase).
    revert H. step_loop. rewrite Hf.
    destruct Hcase as [-> | ->]; discriminate.
  - intros Hs flags choices. rewrite filterChoices_Sequence. cbn [resolve await].
    destruct (truthy s) eqn:E.
    + rewrite (filterChoices_Single_truthy _ _ _ _ _ E). reflexivity.
    + rewrite (filterChoices_Single_falsy _ _ _ _ _ E).
      destruct Hs as [Hs|Hs]; [discriminate|].
      rewrite apply_filters_skip;
        [reflexivity | exact Hs | exact (falsy_not_inherited s E)].
Qed.

(** X8: the two allow-lists are disjoint: with a custom UI build and
    [frontend] "react", a chain naming both strategies, of identifiers whose
    lookup ends in the registry, returns the empty list, whatever the
    choices. *)
Theorem filterChoices_both_strategies_empty (flags : UserFlags)
    (choices : list PromptListChoice) (l : list EnumValue) :
  Forall own_or_absent l ->
  property_key UI_BUILD_FRONTEND <> property_key UI_BUILD_RECIPE ->
  UI_BUILD_FRONTEND ∈ l -> UI_BUILD_RECIPE ∈ l ->
  uibuild flags <> Some "pre-built" ->
  frontend flags = Some "react" ->
  filterChoices flags (Plain choices) (Sequence l) = Fulfilled (VChoices []).
Proof.
  intros Hl Hkeys Hf Hr Hu Hreact.
  rewrite filterChoices_Sequence. cbn [resolve await].
  rewrite apply_filters_custom by assumption.
  apply strict_eq_true in Hreact. rewrite Hreact, andb_false_r.
  rewrite List_filter_false; [reflexivity|].
  intros c. destruct (admits l c) eqn:E; [exfalso|reflexivity].
  pose proof (admits_elem l c _ _ E Hf (strategy_name_frontend Hkeys)) as H1.
  pose proof (admits_elem l c _ _ E Hr strategy_name_recipe) as H2.
  apply list_elem_of_singleton in H1. rewrite H1 in H2.
  apply includes_elem_of in H2. discriminate H2.
Qed.

(** X9: with a custom UI build, every choice returned by a chain that names
    the frontend strategy has the value "react", wherever the identifier
    stands in the chain. *)
Theorem filterChoices_frontend_values (flags : UserFlags)
    (choices out : list PromptListChoice) (l : list EnumValue) :
  property_key UI_BUILD_FRONTEND <> property_key UI_BUILD_RECIPE ->
  UI_BUILD_FRONTEND ∈ l ->
  uibuild flags <> Some "pre-built" ->
  filterChoices flags (Plain choices) (Sequence l) = Fulfilled (VChoices out) ->
  Forall (fun c => value c = "react") out.
Proof.
  intros Hkeys Hf Hu. rewrite filterChoices_Sequence. cbn [resolve await].
  destruct (list_elem_of_split _ _ Hf) as (l1 & l2 & ->).
  rewrite apply_filters_app.
  destruct (apply_filters flags l1 (VChoices choices)) as [mid|e];
    cbn [await]; [|discriminate].
  step_loop. rewrite STRATEGIES_get_by_name, (strategy_name_frontend Hkeys).
  destruct (runUiBuildFrontend mid flags) as [mid'|e] eqn:Emid;
    cbn [await]; [|discriminate].
  intros Hout.
  destruct (apply_filters_sublist _ _ _ _ _ _ Hout) as (c' & -> & Hsub).
  destruct (runUiBuildFrontend_narrows _ _ _ Emid) as (c & -> & _).
  revert Emid. rewrite runUiBuildFrontend_array, uiBuildFrontend_custom by exact Hu.
  intros [= <-]. apply Forall_forall. intros x Hx.
  apply (sublist_subseteq _ _ Hsub) in Hx.
  apply list_elem_of_filter in Hx. destruct Hx as [Hx _].
  apply list_elem_of_singleton in Hx. exact Hx.
Qed.

End EngineExtras.

(** ** Further properties of the option mapper *)

Lemma filter_mapOptionsToChoices (allowed : list string) (options : list QuestionOption) :
  filter (fun c => value c ∈ allowed) (mapOptionsToChoices options)
  = mapOptionsToChoices (filter (fun o => optionValue o ∈ allowed) options).
Proof.
  induction options as [|o options IH]; [reflexivity|].
  rewrite (filter_cons _ o options), mapOptionsToChoices_cons.
  destruct (decide (optionValue o ∈ allowed)) as [Hin|Hout].
  - rewrite mapOptionsToChoices_cons.
    destruct (shouldDisplay o) as [[|]|]; try exact IH;
      rewrite filter_cons, decide_True by exact Hin; rewrite IH; reflexivity.
  - destruct (shouldDisplay o) as [[|]|]; try exact IH;
      rewrite filter_cons, decide_False by exact Hout; exact IH.
Qed.

Lemma mapOptionsToChoices_length_le (options : list QuestionOption) :
  List.length (mapOptionsToChoices options) <= List.length options.
Proof.
  induction options as [|o options IH]; [reflexivity|].
  rewrite mapOptionsToChoices_cons.
  destruct (shouldDisplay o) as [[|]|]; simpl; lia.
Qed.

(** X10: a choice is in the output of [mapOptionsToChoices] exactly when it
    is the [{name, value}] of some input option whose [shouldDisplay] is not
    [false]. *)
Theorem mapOptionsToChoices_elem (options : list QuestionOption)
    (c : PromptListChoice) :
  c ∈ mapOptionsToChoices options
  <-> exists o, o ∈ options /\ shouldDisplay o <> Some false
                /\ c = {| name := displayName o; value := optionValue o |}.
Proof.
  unfold mapOptionsToChoices. rewrite list_elem_of_In, in_map_iff. split.
  - intros (o & <- & Ho). apply filter_In in Ho. destruct Ho as [Hin Hshow].
    exists o. split; [apply list_elem_of_In, Hin|]. split; [|reflexivity].
    intros E. rewrite E in Hshow. discriminate.
  - intros (o & Hin & Hshow & ->). exists o. split; [reflexivity|].
    apply filter_In. split; [apply list_elem_of_In, Hin|].
    destruct (shouldDisplay o) as [[|]|]; congruence.
Qed.

(** X11: [mapOptionsToChoices] distributes over concatenation of option
    lists. *)
Theorem mapOptionsToChoices_app (options1 options2 : list QuestionOption) :
  mapOptionsToChoices (options1 ++ options2)
  = mapOptionsToChoices options1 ++ mapOptionsToChoices options2.
Proof.
  unfold mapOptionsToChoices. rewrite List.filter_app, List.map_app. reflexivity.
Qed.

(** X12: the output is never longer than the input, and has the input's
    length exactly when no option has [shouldDisplay] equal to [false]. *)
Theorem mapOptionsToChoices_length (options : list QuestionOption) :
  List.length (mapOptionsToChoices options) <= List.length options
  /\ (List.length (mapOptionsToChoices options) = List.length options
      <-> Forall (fun o => shouldDisplay o <> Some false) options).
Proof.
  split; [apply mapOptionsToChoices_length_le|].
  induction options as [|o options IH]; [split; [constructor | reflexivity]|].
  rewrite mapOptionsToChoices_cons, Forall_cons.
  pose proof (mapOptionsToChoices_length_le options) as Hle.
  destruct (shouldDisplay o) as [[|]|] eqn:E; simpl.
  - rewrite <- IH. split; [intros [= H]; split; [discriminate | exact H] | intros [_ H]; f_equal; exact H].
  - split; [lia | intros [H _]; contradiction].
  - rewrite <- IH. split; [intros [= H]; split; [discriminate | exact H] | intros [_ H]; f_equal; exact H].
Qed.

(** X13: with a custom UI build, a strategy applied to mapped options
    returns the mapping of the options whose value is in its allow-list:
    filtering choices after the mapping equals filtering options before. *)
Theorem strategies_after_mapping (flags : UserFlags) (options : list QuestionOption) :
  uibuild flags <> Some "pre-built" ->
  uiBuildFrontend (mapOptionsToChoices options) flags
  = Fulfilled
      (mapOptionsToChoices (filter (fun o => optionValue o ∈ ["react"]) options))
  /\ (frontend flags = Some "react" ->
      uiBuildRecipe (mapOptionsToChoices options) flags
      = Fulfilled
          (mapOptionsToChoices
             (filter
                (fun o => optionValue o ∈ ["emailpassword"; "thirdpartyemailpassword"])
                options))).
Proof.
  intros Hu. split.
  - rewrite uiBuildFrontend_custom by exact Hu.
    f_equal. apply filter_mapOptionsToChoices.
  - intros Hf. rewrite uiBuildRecipe_custom_react by assumption.
    f_equal. apply filter_mapOptionsToChoices.
Qed.

(** ** Run scripts *)

(** X14: on every platform the Flask and the Django script lists share their
    setup steps, which start with the installation of virtualenv; both
    install the requirements next and differ only in the final run
    command. *)
Theorem run_scripts_in_sync (platform : string) :
  exists setup,
    head setup = Some "pip install virtualenv"
    /\ getPythonRunScripts platform
       = setup ++ ["pip install -r requirements.txt"; "python app.py"]
    /\ getDjangoPythonRunScripts platform
       = setup ++ ["pip install -r requirements.txt"; "python manage.py runserver"].
Proof.
  unfold getPythonRunScripts, getDjangoPythonRunScripts.
  destruct (String.eqb platform "win32").
  - exists ["pip install virtualenv"; "python -m virtualenv venv";
            ".\\venv\\Scripts\\activate.bat"].
    repeat split.
  - exists ["pip install virtualenv"; "virtualenv venv";
            "chmod +x venv/bin/activate"; ". venv/bin/activate"].
    repeat split.
Qed.

(** X15: the platform switch: the batch activation script is run exactly on
    "win32", and the [chmod] step and the sourcing of [venv/bin/activate]
    exactly on every other platform, in both script lists. *)
Theorem run_scripts_platform (platform : string) (scripts : list string) :
  scripts = getPythonRunScripts platform
  \/ scripts = getDjangoPythonRunScripts platform ->
  (".\\venv\\Scripts\\activate.bat" ∈ scripts <-> platform = "win32")
  /\ ("chmod +x venv/bin/activate" ∈ scripts <-> platform <> "win32")
  /\ (". venv/bin/activate" ∈ scripts <-> platform <> "win32").
Proof.
  unfold getPythonRunScripts, getDjangoPythonRunScripts.
  destruct (String.eqb_spec platform "win32") as [->|Hne]; intros [-> | ->];
    rewrite !elem_of_cons, !elem_of_nil;
    repeat split; intros H; try reflexivity; try exact Hne;
    try (exfalso; intuition discriminate); try (exfalso; apply H; reflexivity);
    try contradiction; auto 10.
Qed.

(** ** The engine on sample data *)





(** The frontend strategy in a chain, and the recipe strategy alone, on
    React and Vue. *)
Lemma strategies_return_subset_witness :
  value <$> [Sample.React] ⊆ value <$> Sample.frontends
  /\ value <$> [] ⊆ value <$> Sample.frontends.
Proof.
  split.
  - apply (proj1 (proj2 (proj2 (strategies_return_subset
             Sample.UI_BUILD_FRONTEND Sample.UI_BUILD_RECIPE
             Sample.custom_react Sample.frontends [Sample.React])))
           [Sample.UI_BUILD_FRONTEND; ENum 3]).
    vm_compute. reflexivity.
  - apply (proj1 (proj2 (strategies_return_subset
             Sample.UI_BUILD_FRONTEND Sample.UI_BUILD_RECIPE
             Sample.custom_react Sample.frontends []))).
    vm_compute. reflexivity.
Defined.

Lemma strategies_return_subsequence_witness :
  [Sample.React] `sublist_of` Sample.frontends
  /\ [] `sublist_of` Sample.frontends.
Proof.
  split.
  - apply (proj1 (strategies_return_subsequence
             Sample.UI_BUILD_FRONTEND Sample.UI_BUILD_RECIPE
             Sample.custom_react Sample.frontends [Sample.React])).
    vm_compute. reflexivity.
  - apply (proj1 (proj2 (proj2 (strategies_return_subsequence
             Sample.UI_BUILD_FRONTEND Sample.UI_BUILD_RECIPE
             Sample.custom_react Sample.frontends [])))
           [Sample.UI_BUILD_FRONTEND; Sample.UI_BUILD_RECIPE]).
    vm_compute. reflexivity.
Defined.

(** With [{uibuild: "custom", frontend: "vue"}] the recipe strategy raises
    through the composed engine as well. *)
Example filterChoices_recipe_conflict :
  Sample.filterChoices Sample.custom_vue (Plain Sample.frontends)
    (Sequence [Sample.UI_BUILD_FRONTEND; Sample.UI_BUILD_RECIPE])
  = Rejected unsatisfiable
  /\ Sample.filterChoices Sample.custom_vue (Plain Sample.frontends)
       (Single Sample.UI_BUILD_RECIPE)
     = Rejected unsatisfiable.
Proof. split; vm_compute; reflexivity. Qed.

(** Names of inherited properties as identifiers: [constructor] returns the
    array it is given; [toString] returns a string, on which a later
    strategy fails; the order of the two then matters. *)
Example filterChoices_inherited_names :
  Sample.filterChoices Sample.custom_react (Plain Sample.frontends)
    (Sequence [EStr "constructor"; Sample.UI_BUILD_FRONTEND])
  = Fulfilled (VChoices [Sample.React])
  /\ Sample.filterChoices Sample.custom_react (Plain Sample.frontends)
       (Sequence [Sample.UI_BUILD_FRONTEND; EStr "toString"])
     = Fulfilled VOther
  /\ Sample.filterChoices Sample.custom_react (Plain Sample.frontends)
       (Sequence [EStr "toString"; Sample.UI_BUILD_FRONTEND])
     = Rejected JsTypeError.
Proof. repeat split; vm_compute; reflexivity. Qed.

(** ** The further properties on sample data *)

Lemma filterChoices_pre_built_witness :
  Sample.filterChoices {| uibuild := Some "pre-built"; frontend := None |}
    (Plain Sample.frontends)
    (Sequence [Sample.UI_BUILD_FRONTEND; Sample.UI_BUILD_RECIPE; EStr "OTHER"])
  = Fulfilled (VChoices Sample.frontends)
  /\ Sample.filterChoices {| uibuild := Some "pre-built"; frontend := None |}
       (Plain Sample.frontends) (Single Sample.UI_BUILD_RECIPE)
     = Fulfilled (VChoices Sample.frontends).
Proof.
  split.
  - apply (proj1 (filterChoices_pre_built
             Sample.UI_BUILD_FRONTEND Sample.UI_BUILD_RECIPE
             {| uibuild := Some "pre-built"; frontend := None |}
             Sample.frontends eq_refl)).
    apply (bool_decide_unpack _). vm_compute. exact I.
  - apply (proj2 (filterChoices_pre_built
             Sample.UI_BUILD_FRONTEND Sample.UI_BUILD_RECIPE
             {| uibuild := Some "pre-built"; frontend := None |}
             Sample.frontends eq_refl)).
    apply (bool_decide_unpack _). vm_compute. exact I.
Defined.

Lemma filterChoices_rejects_iff_witness :
  Sample.filterChoices Sample.custom_vue (Plain Sample.frontends)
    (Sequence [Sample.UI_BUILD_FRONTEND; Sample.UI_BUILD_RECIPE])
  = Rejected unsatisfiable.
Proof.
  apply (proj2 (filterChoices_rejects_iff
           Sample.UI_BUILD_FRONTEND Sample.UI_BUILD_RECIPE
           Sample.custom_vue Sample.frontends
           [Sample.UI_BUILD_FRONTEND; Sample.UI_BUILD_RECIPE] unsatisfiable
           ltac:(apply (bool_decide_unpack _); vm_compute; exact I))).
  split; [reflexivity|]. split; [discriminate|]. split; [discriminate|].
  exists Sample.UI_BUILD_RECIPE. split; [|reflexivity].
  rewrite !elem_of_cons. auto.
Defined.

Lemma filterChoices_same_identifiers_witness :
  Sample.filterChoices Sample.custom_vue (Plain Sample.frontends)
    (Sequence [Sample.UI_BUILD_FRONTEND; Sample.UI_BUILD_RECIPE])
  = Sample.filterChoices Sample.custom_vue (Plain Sample.frontends)
      (Sequence [Sample.UI_BUILD_RECIPE; Sample.UI_BUILD_FRONTEND;
                 Sample.UI_BUILD_RECIPE]).
Proof.
  apply (proj1 (filterChoices_same_identifiers
           Sample.UI_BUILD_FRONTEND Sample.UI_BUILD_RECIPE
           Sample.custom_vue
           [Sample.UI_BUILD_FRONTEND; Sample.UI_BUILD_RECIPE]
           [Sample.UI_BUILD_RECIPE; Sample.UI_BUILD_FRONTEND;
            Sample.UI_BUILD_RECIPE]
           ltac:(apply (bool_decide_unpack _); vm_compute; exact I)
           ltac:(intros s; rewrite !elem_of_cons, !elem_of_nil; tauto))).
Defined.

Lemma filterChoices_idempotent_witness :
  Sample.filterChoices Sample.custom_react
    (Pending
       (Sample.filterChoices Sample.custom_react (Plain Sample.frontends)
          (Sequence [Sample.UI_BUILD_FRONTEND; ENum 3])))
    (Sequence [Sample.UI_BUILD_FRONTEND; ENum 3])
  = Sample.filterChoices Sample.custom_react (Plain Sample.frontends)
      (Sequence [Sample.UI_BUILD_FRONTEND; ENum 3]).
Proof.
  apply (proj1 (filterChoices_idempotent
           Sample.UI_BUILD_FRONTEND Sample.UI_BUILD_RECIPE
           Sample.custom_react [Sample.UI_BUILD_FRONTEND; ENum 3]
           ltac:(apply (bool_decide_unpack _); vm_compute; exact I))).
Defined.

(** Distinct keys, and the keys of the number [1] and of the string "1". *)
Lemma filterChoices_dispatch_witness :
  Sample.filterChoices Sample.custom_vue (Plain Sample.frontends)
    (Sequence [Sample.UI_BUILD_FRONTEND])
  = Promise_map VChoices (uiBuildFrontend Sample.frontends Sample.custom_vue)
  /\ filterChoices (ENum 1) (EStr "1") Sample.custom_vue (Plain Sample.frontends)
       (Sequence [ENum 1])
     = Promise_map VChoices (uiBuildRecipe Sample.frontends Sample.custom_vue).
Proof.
  split.
  - apply (proj1 (proj2 (filterChoices_dispatch
             Sample.UI_BUILD_FRONTEND Sample.UI_BUILD_RECIPE
             Sample.custom_vue Sample.frontends))).
    apply (bool_decide_unpack _). vm_compute. exact I.
  - apply (proj2 (proj2 (filterChoices_dispatch (ENum 1) (EStr "1")
             Sample.custom_vue Sample.frontends))).
    vm_compute. reflexivity.
Defined.

Lemma filterChoices_both_strategies_empty_witness :
  Sample.filterChoices Sample.custom_react (Plain Sample.frontends)
    (Sequence [Sample.UI_BUILD_FRONTEND; ENum 7; Sample.UI_BUILD_RECIPE])
  = Fulfilled (VChoices []).
Proof.
  apply (filterChoices_both_strategies_empty
           Sample.UI_BUILD_FRONTEND Sample.UI_BUILD_RECIPE
           Sample.custom_react Sample.frontends
           [Sample.UI_BUILD_FRONTEND; ENum 7; Sample.UI_BUILD_RECIPE]).
  - apply (bool_decide_unpack _). vm_compute. exact I.
  - apply (bool_decide_unpack _). vm_compute. exact I.
  - rewrite !elem_of_cons. auto.
  - rewrite !elem_of_cons. auto.
  - apply (bool_decide_unpack _). vm_compute. exact I.
  - reflexivity.
Defined.

Lemma filterChoices_frontend_values_witness :
  Forall (fun c => value c = "react") [Sample.React].
Proof.
  apply (filterChoices_frontend_values
           Sample.UI_BUILD_FRONTEND Sample.UI_BUILD_RECIPE
           Sample.custom_vue Sample.frontends [Sample.React]
           [ENum 7; Sample.UI_BUILD_FRONTEND]).
  - apply (bool_decide_unpack _). vm_compute. exact I.
  - rewrite !elem_of_cons. auto.
  - apply (bool_decide_unpack _). vm_compute. exact I.
  - vm_compute. reflexivity.
Defined.

Lemma strategies_after_mapping_witness :
  uiBuildFrontend
    (mapOptionsToChoices
       [ mkOption "React" "react" None;
         mkOption "Vue" "vue" (Some true);
         mkOption "React (beta)" "react" (Some false) ])
    Sample.custom_react
  = Fulfilled
      (mapOptionsToChoices
         (filter (fun o => optionValue o ∈ ["react"])
            [ mkOption "React" "react" None;
              mkOption "Vue" "vue" (Some true);
              mkOption "React (beta)" "react" (Some false) ]))
  /\ uiBuildRecipe
       (mapOptionsToChoices
          [ mkOption "Passwordless" "passwordless" None;
            mkOption "Email Password" "emailpassword" None ])
       Sample.custom_react
     = Fulfilled
         (mapOptionsToChoices
            (filter
               (fun o => optionValue o ∈ ["emailpassword"; "thirdpartyemailpassword"])
               [ mkOption "Passwordless" "passwordless" None;
                 mkOption "Email Password" "emailpassword" None ])).
Proof.
  split.
  - apply (proj1 (strategies_after_mapping Sample.custom_react
             [ mkOption "React" "react" None;
               mkOption "Vue" "vue" (Some true);
               mkOption "React (beta)" "react" (Some false) ]
             ltac:(apply (bool_decide_unpack _); vm_compute; exact I))).
  - apply (proj2 (strategies_after_mapping Sample.custom_react
             [ mkOption "Passwordless" "passwordless" None;
               mkOption "Email Password" "emailpassword" None ]
             ltac:(apply (bool_decide_unpack _); vm_compute; exact I))).
    reflexivity.
Defined.

Lemma run_scripts_platform_witness :
  "chmod +x venv/bin/activate" ∈ getDjangoPythonRunScripts "linux"
  <-> "linux" <> "win32".
Proof.
  apply (proj1 (proj2 (run_scripts_platform "linux"
                         (getDjangoPythonRunScripts "linux")
                         (or_intror eq_refl)))).
Defined.
